(** * Input handlers of the roguelike: a shallow embedding

    Source: [roguelike/bin/input_handlers.py].

    The module defines the event handlers that turn raw input events into
    game actions, the turn resolver [handle_action], and the message-history
    viewer with its cursor.  Python integers are unbounded, so they are
    modelled as [Z].  The handlers mutate the engine they hold a reference
    to; that is modelled by a state monad over the engine, in which a raised
    exception keeps the state reached so far (as in Python).

    The engine, the actions, the message log, the colours and the
    exceptions live in modules that are imported but not part of this file
    ([engine], [actions], [color], [exceptions]); the handlers use them
    through a narrow interface, which is a parameter of the development. *)

From Stdlib Require Import ZArith List String Bool Lia.
Import ListNotations.
Local Open Scope Z_scope.

(** ** Key symbols: [tcod.event.KeySym]

    The enumeration has several hundred members; the twelve the module
    names are constructors, every other member is [Other] with its code. *)

Module KeySym.

Inductive t : Type :=
| UP | DOWN | LEFT | RIGHT
| HOME | END | PAGEUP | PAGEDOWN
| PERIOD | ESCAPE | v | g
| Other (code : Z).

Definition eqb (a b : t) : bool :=
  match a, b with
  | UP, UP | DOWN, DOWN | LEFT, LEFT | RIGHT, RIGHT => true
  | HOME, HOME | END, END | PAGEUP, PAGEUP | PAGEDOWN, PAGEDOWN => true
  | PERIOD, PERIOD | ESCAPE, ESCAPE | v, v | g, g => true
  | Other m, Other n => Z.eqb m n
  | _, _ => false
  end.

End KeySym.

(** ** Python containers *)

(** A dict literal with [KeySym] keys, in source order.  [dict_get d k] is
    [Some value] exactly when [k in d], and the value is [d[k]]. *)
Definition dict (V : Type) : Type := list (KeySym.t * V).

Fixpoint dict_get {V : Type} (d : dict V) (k : KeySym.t) : option V :=
  match d with
  | [] => None
  | (k', x) :: d' => if KeySym.eqb k k' then Some x else dict_get d' k
  end.

(** [key in s] for a set literal. *)
Definition set_in (k : KeySym.t) (s : list KeySym.t) : bool :=
  existsb (KeySym.eqb k) s.

(** The slice [l[:stop]]: a negative [stop] counts from the end, and both
    ends are clipped to the list. *)
Definition slice_to {A : Type} (l : list A) (stop : Z) : list A :=
  let n := Z.of_nat (List.length l) in
  let stop' := if stop <? 0 then Z.max 0 (n + stop) else Z.min stop n in
  firstn (Z.to_nat stop') l.

(** ** The key tables *)

Definition MOVE_KEYS : dict (Z * Z) :=
  [ (KeySym.UP, (0, -1));
    (KeySym.DOWN, (0, 1));
    (KeySym.LEFT, (-1, 0));
    (KeySym.RIGHT, (1, 0));
    (KeySym.HOME, (-1, -1));
    (KeySym.END, (-1, 1));
    (KeySym.PAGEUP, (1, -1));
    (KeySym.PAGEDOWN, (1, 1)) ].

Definition WAIT_KEYS : list KeySym.t := [ KeySym.PERIOD ].

Definition CURSOR_Y_KEYS : dict Z :=
  [ (KeySym.UP, -1);
    (KeySym.DOWN, 1);
    (KeySym.PAGEUP, -10);
    (KeySym.PAGEDOWN, 10) ].

(** ** Events: the three [tcod.event] classes the handlers override a
    method for, and all the others. *)

Inductive Event : Type :=
| KeyDown (sym : KeySym.t)
| MouseMotion (tile_x tile_y : Z)
| Quit
| OtherEvent.

(** ** Exceptions and results *)

(** Modelled from the spec: [exceptions.Impossible] is not in this file; it
    is the recoverable failure of an action and carries its message, read
    by the handler as [exc.args[0]].  [SystemExit] is Python's own. *)
Inductive Exn : Type :=
| Impossible (msg : string)
| SystemExit.

Inductive Result (A : Type) : Type :=
| Ok (a : A)
| Raise (exc : Exn).

Arguments Ok {A} a.
Arguments Raise {A} exc.

(** ** The history viewer's own fields *)

Record HistoryViewer : Type := mkHistoryViewer {
  log_length : Z;
  cursor : Z
}.

(** The handler classes.  [HelpViewer] has an empty body in the source. *)
Inductive EventHandler : Type :=
| MainGameEventHandler
| GameOverEventHandler
| History (self : HistoryViewer)
| HelpViewer.

Section InputHandlers.

(** Types of the collaborating modules. *)
Variables Entity GameMap Color : Type.

(** ** Actions: the four classes imported from [actions], built with the
    arguments the handler passes. *)
Inductive Action : Type :=
| BumpAction (entity : Entity) (dx dy : Z)
| EscapeAction (entity : Entity)
| PickupAction (entity : Entity)
| WaitAction (entity : Entity).

(** ** The message log *)

(** Modelled from the spec: the message log is not in this file; it is an
    ordered, append-only sequence of (text, style) pairs. *)
Definition Message : Type := (string * Color)%type.

Record MessageLog : Type := mkMessageLog {
  messages : list Message
}.

(** Modelled from the spec: [MessageLog.add_message(text, style)] is not in
    this file; it appends the pair at the end of the sequence. *)
Definition add_message (text : string) (fg : Color) (log : MessageLog) : MessageLog :=
  mkMessageLog (messages log ++ [(text, fg)]).

(** ** The engine: the attributes the handlers read and write. *)
Record Engine : Type := mkEngine {
  event_handler : EventHandler;
  message_log : MessageLog;
  mouse_location : Z * Z;
  game_map : GameMap;
  player : Entity
}.

Definition set_event_handler (h : EventHandler) (e : Engine) : Engine :=
  mkEngine h (message_log e) (mouse_location e) (game_map e) (player e).

Definition set_message_log (l : MessageLog) (e : Engine) : Engine :=
  mkEngine (event_handler e) l (mouse_location e) (game_map e) (player e).

Definition set_mouse_location (p : Z * Z) (e : Engine) : Engine :=
  mkEngine (event_handler e) (message_log e) p (game_map e) (player e).

(** ** The collaborators *)

(** [color.impossible]. *)
Variable impossible : Color.

(** [GameMap.in_bounds(x, y)]. *)
Variable in_bounds : GameMap -> Z -> Z -> bool.

(** [action.perform()]: it may change the engine, and it returns or raises. *)
Variable perform : Action -> Engine -> Result unit * Engine.

(** [engine.handle_enemy_turns()] and [engine.update_fov()]: procedures on
    the engine; the handler catches nothing around them. *)
Variable handle_enemy_turns : Engine -> Engine.
Variable update_fov : Engine -> Engine.

(** ** Observable effects

    Next to the engine the model keeps the list, oldest first, of the calls
    made to the collaborators and of the assignments to
    [engine.event_handler].  The code never reads it: it is there to state
    which calls a handler makes, and in which order. *)
Inductive Effect : Type :=
| Perform (a : Action)
| AddMessage (text : string) (fg : Color)
| HandleEnemyTurns
| UpdateFov
| SetEventHandler (h : EventHandler).

Record World : Type := mkWorld {
  engine : Engine;
  effects : list Effect
}.

(** ** The monad of the handlers *)

Definition M (A : Type) : Type := World -> Result A * World.

Definition ret {A : Type} (a : A) : M A := fun w => (Ok a, w).

Definition bind {A B : Type} (c : M A) (k : A -> M B) : M B :=
  fun w =>
    match c w with
    | (Ok a, w') => k a w'
    | (Raise exc, w') => (Raise exc, w')
    end.

Definition raise {A : Type} (exc : Exn) : M A := fun w => (Raise exc, w).

Notation "x <- c ;; k" := (bind c (fun x => k))
  (at level 61, c at next level, right associativity).
Notation "c ;; k" := (bind c (fun _ => k))
  (at level 61, right associativity).

(** [try: c / except exceptions.Impossible as exc:]: the message of the
    exception when [c] raised [Impossible], [None] when [c] returned; any
    other exception goes on. *)
Definition except_Impossible (c : M unit) : M (option string) :=
  fun w =>
    match c w with
    | (Ok _, w') => (Ok None, w')
    | (Raise (Impossible msg), w') => (Ok (Some msg), w')
    | (Raise exc, w') => (Raise exc, w')
    end.

Definition get_engine : M Engine := fun w => (Ok (engine w), w).

Definition modify_engine (f : Engine -> Engine) : M unit :=
  fun w => (Ok tt, mkWorld (f (engine w)) (effects w)).

Definition emit (x : Effect) : M unit :=
  fun w => (Ok tt, mkWorld (engine w) (effects w ++ [x])).

(** [action.perform()] *)
Definition action_perform (a : Action) : M unit :=
  emit (Perform a) ;;
  fun w => let (r, e') := perform a (engine w) in (r, mkWorld e' (effects w)).

(** [self.engine.message_log.add_message(text, fg)] *)
Definition engine_add_message (text : string) (fg : Color) : M unit :=
  emit (AddMessage text fg) ;;
  modify_engine (fun e => set_message_log (add_message text fg (message_log e)) e).

(** [self.engine.handle_enemy_turns()] *)
Definition engine_handle_enemy_turns : M unit :=
  emit HandleEnemyTurns ;; modify_engine handle_enemy_turns.

(** [self.engine.update_fov()] *)
Definition engine_update_fov : M unit :=
  emit UpdateFov ;; modify_engine update_fov.

(** [self.engine.event_handler = h] *)
Definition assign_event_handler (h : EventHandler) : M unit :=
  emit (SetEventHandler h) ;; modify_engine (set_event_handler h).

(** ** [EventHandler] *)

(** [EventHandler.handle_action]: [True] when the action advances the
    turn. *)
Definition handle_action (action : option Action) : M bool :=
  match action with
  | None => ret false
  | Some a =>
      exc <- except_Impossible (action_perform a) ;;
      match exc with
      | Some args0 =>
          engine_add_message args0 impossible ;;
          ret false
      | None =>
          engine_handle_enemy_turns ;;
          engine_update_fov ;;
          ret true
      end
  end.

(** [EventHandler.ev_mousemotion] *)
Definition ev_mousemotion (tile_x tile_y : Z) : M (option Action) :=
  e <- get_engine ;;
  if in_bounds (game_map e) tile_x tile_y
  then modify_engine (set_mouse_location (tile_x, tile_y)) ;; ret None
  else ret None.

(** [EventHandler.ev_quit] *)
Definition ev_quit : M (option Action) := raise SystemExit.

(** ** [HistoryViewer] *)

(** [HistoryViewer.__init__] *)
Definition HistoryViewer_init (e : Engine) : HistoryViewer :=
  let log_length := Z.of_nat (List.length (messages (message_log e))) in
  mkHistoryViewer log_length (log_length - 1).

(** An assignment to [self.cursor].  The handler whose method runs is the
    one the engine holds in [event_handler] (the main loop calls
    [engine.event_handler.handle_events]), so the engine sees the new
    cursor. *)
Definition assign_cursor (self : HistoryViewer) (c : Z) : M unit :=
  modify_engine (set_event_handler (History (mkHistoryViewer (log_length self) c))).

(** [HistoryViewer.ev_keydown].  In the first branch the source has the
    expression statement [self.cursor - self.log_length - 1], which
    assigns nothing. *)
Definition HistoryViewer_ev_keydown (self : HistoryViewer) (sym : KeySym.t)
  : M (option Action) :=
  match dict_get CURSOR_Y_KEYS sym with
  | Some adjust =>
      if (adjust <? 0) && (cursor self =? 0) then
        ret None
      else if (0 <? adjust) && (cursor self =? log_length self - 1) then
        assign_cursor self 0 ;; ret None
      else
        assign_cursor self
          (Z.max 0 (Z.min (cursor self + adjust) (log_length self - 1))) ;;
        ret None
  | None =>
      if KeySym.eqb sym KeySym.HOME then
        assign_cursor self 0 ;; ret None
      else if KeySym.eqb sym KeySym.END then
        assign_cursor self (log_length self - 1) ;; ret None
      else
        assign_event_handler MainGameEventHandler ;; ret None
  end.

(** The slice [HistoryViewer.on_render] hands to [render_messages]:
    [self.engine.message_log.messages[: self.cursor + 1]]. *)
Definition on_render_messages (self : HistoryViewer) (e : Engine) : list Message :=
  slice_to (messages (message_log e)) (cursor self + 1).

(** ** [MainGameEventHandler] *)

Definition MainGameEventHandler_ev_keydown (key : KeySym.t) : M (option Action) :=
  e <- get_engine ;;
  let player := player e in
  match dict_get MOVE_KEYS key with
  | Some (dx, dy) => ret (Some (BumpAction player dx dy))
  | None =>
      if set_in key WAIT_KEYS then
        ret (Some (WaitAction player))
      else if KeySym.eqb key KeySym.ESCAPE then
        ret (Some (EscapeAction player))
      else if KeySym.eqb key KeySym.v then
        assign_event_handler (History (HistoryViewer_init e)) ;; ret None
      else if KeySym.eqb key KeySym.g then
        ret (Some (PickupAction player))
      else
        ret None
  end.

(** ** [GameOverEventHandler] *)

Definition GameOverEventHandler_ev_keydown (sym : KeySym.t) : M (option Action) :=
  if KeySym.eqb sym KeySym.ESCAPE then raise SystemExit else ret None.

(** ** Dispatch *)

(** The [ev_keydown] of each class; [HelpViewer] overrides nothing, and
    the inherited method returns [None]. *)
Definition ev_keydown (self : EventHandler) (sym : KeySym.t) : M (option Action) :=
  match self with
  | MainGameEventHandler => MainGameEventHandler_ev_keydown sym
  | GameOverEventHandler => GameOverEventHandler_ev_keydown sym
  | History hv => HistoryViewer_ev_keydown hv sym
  | HelpViewer => ret None
  end.

(** [self.dispatch(event)]: the method named after the event's type. *)
Definition dispatch (self : EventHandler) (event : Event) : M (option Action) :=
  match event with
  | KeyDown sym => ev_keydown self sym
  | MouseMotion x y => ev_mousemotion x y
  | Quit => ev_quit
  | OtherEvent => ret None
  end.

(** [EventHandler.handle_events], with the value of [handle_action] kept
    for the statements (the source drops it). *)
Definition handle_events (self : EventHandler) (event : Event) : M bool :=
  action <- dispatch self event ;;
  handle_action action.

(** One turn of the main loop: [engine.event_handler.handle_events(event)]. *)
Definition step (event : Event) : M bool :=
  e <- get_engine ;;
  handle_events (event_handler e) event.

(** The world after a list of events, as long as no exception ends the
    process. *)
Fixpoint run (events : list Event) (w : World) : Result unit * World :=
  match events with
  | [] => (Ok tt, w)
  | ev :: rest =>
      match step ev w with
      | (Ok _, w') => run rest w'
      | (Raise exc, w') => (Raise exc, w')
      end
  end.

(** ** Predicates of the statements *)

(** The keys [HistoryViewer.ev_keydown] keeps the viewer open for: the
    keys of [CURSOR_Y_KEYS], [HOME] and [END]. *)
Definition is_history_key (sym : KeySym.t) : bool :=
  match dict_get CURSOR_Y_KEYS sym with
  | Some _ => true
  | None => KeySym.eqb sym KeySym.HOME || KeySym.eqb sym KeySym.END
  end.

(** The invariant of the viewer: with a log that is not empty the cursor
    is the index of one of its messages. *)
Definition cursor_in_range (self : HistoryViewer) : Prop :=
  0 < log_length self -> 0 <= cursor self <= log_length self - 1.

(** [clamp lo hi x] is [max(lo, min(x, hi))]. *)
Definition clamp (lo hi x : Z) : Z := Z.max lo (Z.min x hi).

(** The cursor of the active handler, when it is a history viewer. *)
Definition active_cursor (w : World) : option Z :=
  match event_handler (engine w) with
  | History hv => Some (cursor hv)
  | _ => None
  end.

(** * Properties *)

(** ** Key symbols and records *)

Lemma KeySym_eqb_eq (a b : KeySym.t) : KeySym.eqb a b = true <-> a = b.
Proof.
  split.
  - destruct a, b; simpl; intros H; try discriminate; try reflexivity.
    apply Z.eqb_eq in H. now subst.
  - intros <-. destruct a; simpl; try reflexivity. apply Z.eqb_refl.
Qed.

Lemma KeySym_eqb_neq (a b : KeySym.t) : a <> b -> KeySym.eqb a b = false.
Proof.
  intros H. destruct (KeySym.eqb a b) eqn:E; [| reflexivity].
  apply KeySym_eqb_eq in E. contradiction.
Qed.

Lemma set_event_handler_same (e : Engine) :
  set_event_handler (event_handler e) e = e.
Proof. now destruct e. Qed.

Lemma World_eta (w : World) : mkWorld (engine w) (effects w) = w.
Proof. now destruct w. Qed.

(** The keys of [CURSOR_Y_KEYS], with their steps. *)
Lemma CURSOR_Y_KEYS_inv (sym : KeySym.t) (adjust : Z) :
  dict_get CURSOR_Y_KEYS sym = Some adjust ->
  (sym = KeySym.UP /\ adjust = -1) \/ (sym = KeySym.DOWN /\ adjust = 1) \/
  (sym = KeySym.PAGEUP /\ adjust = -10) \/ (sym = KeySym.PAGEDOWN /\ adjust = 10).
Proof.
  destruct sym; simpl; intros H; try discriminate; inversion H; tauto.
Qed.

(** A key press in the history viewer, as a function of the step: the
    three branches of the source. *)
Lemma HistoryViewer_scroll (self : HistoryViewer) (sym : KeySym.t) (adjust : Z) (w : World) :
  dict_get CURSOR_Y_KEYS sym = Some adjust ->
  event_handler (engine w) = History self ->
  exists c,
    HistoryViewer_ev_keydown self sym w =
      (Ok None,
       mkWorld (set_event_handler (History (mkHistoryViewer (log_length self) c)) (engine w))
               (effects w))
    /\ (adjust < 0 /\ cursor self = 0 -> c = cursor self)
    /\ (~ (adjust < 0 /\ cursor self = 0) ->
        0 < adjust /\ cursor self = log_length self - 1 -> c = 0)
    /\ (~ (adjust < 0 /\ cursor self = 0) ->
        ~ (0 < adjust /\ cursor self = log_length self - 1) ->
        c = clamp 0 (log_length self - 1) (cursor self + adjust)).
Proof.
  intros Hk Ha. unfold HistoryViewer_ev_keydown. rewrite Hk.
  destruct (Z.ltb_spec adjust 0) as [Hneg | Hneg];
    destruct (Z.eqb_spec (cursor self) 0) as [Hz | Hz]; simpl.
  - exists (cursor self). split.
    + unfold ret. rewrite <- (World_eta w) at 1. f_equal. f_equal.
      rewrite <- (set_event_handler_same (engine w)) at 1. rewrite Ha.
      now destruct self.
    + repeat split; intros; tauto.
  - destruct (Z.ltb_spec 0 adjust); [lia |]. simpl.
    eexists. split; [reflexivity |]. unfold clamp. repeat split; intros; lia.
  - destruct (Z.ltb_spec 0 adjust) as [Hpos | Hpos];
      destruct (Z.eqb_spec (cursor self) (log_length self - 1)) as [Hl | Hl]; simpl;
      (eexists; split; [reflexivity |]); unfold clamp; repeat split; intros; lia.
  - destruct (Z.ltb_spec 0 adjust) as [Hpos | Hpos];
      destruct (Z.eqb_spec (cursor self) (log_length self - 1)) as [Hl | Hl]; simpl;
      (eexists; split; [reflexivity |]); unfold clamp; repeat split; intros; lia.
Qed.

(** ** The turn resolver: [handle_action] *)

Lemma handle_action_None (w : World) : handle_action None w = (Ok false, w).
Proof. reflexivity. Qed.

(** C2.  When [action.perform()] raises [Impossible], [handle_action]
    returns [False]; the calls it made are [perform] and then one
    [add_message] with the message of the exception and the colour
    [color.impossible], so neither [handle_enemy_turns] nor [update_fov]
    is called; the engine is the one [perform] left, with exactly that one
    message appended to the log. *)
Theorem handle_action_impossible
  (a : Action) (msg : string) (w : World) (e1 : Engine) :
  perform a (engine w) = (Raise (Impossible msg), e1) ->
  exists w',
    handle_action (Some a) w = (Ok false, w')
    /\ messages (message_log (engine w')) =
         messages (message_log e1) ++ [(msg, impossible)]
    /\ engine w' = set_message_log (add_message msg impossible (message_log e1)) e1
    /\ effects w' = effects w ++ [Perform a; AddMessage msg impossible]
    /\ (forall x, In x [Perform a; AddMessage msg impossible] ->
          x <> HandleEnemyTurns /\ x <> UpdateFov).
Proof.
  intros Hp. eexists. split.
  - unfold handle_action, bind, except_Impossible, action_perform, bind, emit.
    simpl. rewrite Hp. simpl. reflexivity.
  - simpl. repeat split; try (rewrite <- app_assoc; reflexivity).
    all: destruct H as [<- | [<- | []]]; discriminate.
Qed.

(** C3.  When [action.perform()] returns, [handle_action] calls
    [handle_enemy_turns], then [update_fov], in that order and nothing
    else, and returns [True]. *)
Theorem handle_action_success (a : Action) (w : World) (e1 : Engine) :
  perform a (engine w) = (Ok tt, e1) ->
  handle_action (Some a) w =
    (Ok true,
     mkWorld (update_fov (handle_enemy_turns e1))
             (effects w ++ [Perform a; HandleEnemyTurns; UpdateFov])).
Proof.
  intros Hp.
  unfold handle_action, bind, except_Impossible, action_perform, bind, emit.
  simpl. rewrite Hp. simpl. now rewrite <- !app_assoc.
Qed.

(** An exception of [perform] other than [Impossible] is not caught. *)
Lemma handle_action_exit (a : Action) (w : World) (e1 : Engine) :
  perform a (engine w) = (Raise SystemExit, e1) ->
  handle_action (Some a) w = (Raise SystemExit, mkWorld e1 (effects w ++ [Perform a])).
Proof.
  intros Hp.
  unfold handle_action, bind, except_Impossible, action_perform, bind, emit.
  simpl. now rewrite Hp.
Qed.

(** ** The main handler *)

(** The wait key gives a [WaitAction] of the player. *)
Lemma main_wait_key (w : World) :
  dispatch MainGameEventHandler (KeyDown KeySym.PERIOD) w =
    (Ok (Some (WaitAction (player (engine w)))), w).
Proof. reflexivity. Qed.

(** C4.  In the main handler the key [v] returns no action and makes a
    new history viewer the active handler: its [log_length] is the number
    of messages in the log at that moment and its cursor is
    [log_length - 1]; the event does not advance the turn. *)
Theorem main_view_history (w : World) :
  let n := Z.of_nat (List.length (messages (message_log (engine w)))) in
  let hv := mkHistoryViewer n (n - 1) in
  let w' := mkWorld (set_event_handler (History hv) (engine w))
                    (effects w ++ [SetEventHandler (History hv)]) in
  dispatch MainGameEventHandler (KeyDown KeySym.v) w = (Ok None, w')
  /\ handle_events MainGameEventHandler (KeyDown KeySym.v) w = (Ok false, w')
  /\ event_handler (engine w') = History hv
  /\ cursor hv = log_length hv - 1.
Proof. repeat split. Qed.


(** C6.  For each of the eight keys of the move table the main handler
    returns a [BumpAction] of the player with the listed [(dx, dy)], and
    leaves the engine as it was: it assigns no handler and calls nothing.
    The table has no other key. *)
Theorem main_move_keys (w : World) :
  Forall
    (fun '(key, (dx, dy)) =>
       dispatch MainGameEventHandler (KeyDown key) w =
         (Ok (Some (BumpAction (player (engine w)) dx dy)), w))
    [ (KeySym.UP, (0, -1)); (KeySym.DOWN, (0, 1));
      (KeySym.LEFT, (-1, 0)); (KeySym.RIGHT, (1, 0));
      (KeySym.HOME, (-1, -1)); (KeySym.END, (-1, 1));
      (KeySym.PAGEUP, (1, -1)); (KeySym.PAGEDOWN, (1, 1)) ]
  /\ (forall key,
        dict_get MOVE_KEYS key <> None <->
        In key [ KeySym.UP; KeySym.DOWN; KeySym.LEFT; KeySym.RIGHT;
                 KeySym.HOME; KeySym.END; KeySym.PAGEUP; KeySym.PAGEDOWN ]).
Proof.
  split.
  - repeat constructor.
  - intros key. split.
    + destruct key; simpl; intros H; try tauto; now contradiction H.
    + simpl. intros H.
      repeat (destruct H as [<- | H]; [discriminate |]). contradiction.
Qed.

(** ** The game-over handler *)

(** C9.  In the game-over handler a key other than [ESCAPE] returns no
    action and changes nothing, and the event does not advance the turn;
    [ESCAPE] raises [SystemExit], which nothing catches: no action is
    returned and [handle_action] is not reached. *)
Theorem game_over_keys (w : World) :
  (forall sym, sym <> KeySym.ESCAPE ->
     dispatch GameOverEventHandler (KeyDown sym) w = (Ok None, w)
     /\ handle_events GameOverEventHandler (KeyDown sym) w = (Ok false, w))
  /\ dispatch GameOverEventHandler (KeyDown KeySym.ESCAPE) w = (Raise SystemExit, w)
  /\ handle_events GameOverEventHandler (KeyDown KeySym.ESCAPE) w = (Raise SystemExit, w).
Proof.
  split; [| split; reflexivity].
  intros sym Hs. unfold handle_events, bind. simpl.
  unfold GameOverEventHandler_ev_keydown. rewrite (KeySym_eqb_neq _ _ Hs).
  split; reflexivity.
Qed.

(** ** Pointer motion *)

(** C8.  Whatever the handler, a pointer-motion event stores the reported
    tile in [engine.mouse_location] when the tile is within the bounds of
    the map, and changes nothing else; when the tile is out of bounds the
    engine is left as it was.  No action is returned, none of the
    collaborators is called, and the event does not advance the turn. *)
Theorem mousemotion_in_bounds_only (self : EventHandler) (x y : Z) (w : World) :
  (in_bounds (game_map (engine w)) x y = true ->
     let w' := mkWorld (set_mouse_location (x, y) (engine w)) (effects w) in
     dispatch self (MouseMotion x y) w = (Ok None, w')
     /\ handle_events self (MouseMotion x y) w = (Ok false, w')
     /\ mouse_location (engine w') = (x, y))
  /\ (in_bounds (game_map (engine w)) x y = false ->
     dispatch self (MouseMotion x y) w = (Ok None, w)
     /\ handle_events self (MouseMotion x y) w = (Ok false, w)).
Proof.
  split; intros Hb; unfold handle_events, bind; simpl;
    unfold ev_mousemotion, bind, get_engine; rewrite Hb; simpl; repeat split.
Qed.


(** ** The history viewer *)

(** C1, as the code has it.  With [log_length > 0], a key of
    [CURSOR_Y_KEYS] with step [adjust] leaves the viewer active and turns
    the cursor into [max(0, min(cursor + adjust, log_length - 1))], with
    one exception: under a positive step a cursor at [log_length - 1]
    goes to [0].  At cursor [0] a negative step leaves the cursor at [0].
    The new cursor is within [0, log_length - 1]; no action is returned
    and the turn does not advance. *)
Theorem history_scroll_keys
  (self : HistoryViewer) (sym : KeySym.t) (adjust : Z) (w : World) :
  0 < log_length self ->
  dict_get CURSOR_Y_KEYS sym = Some adjust ->
  event_handler (engine w) = History self ->
  exists c,
    let w' := mkWorld
                (set_event_handler (History (mkHistoryViewer (log_length self) c)) (engine w))
                (effects w) in
    dispatch (History self) (KeyDown sym) w = (Ok None, w')
    /\ handle_events (History self) (KeyDown sym) w = (Ok false, w')
    /\ active_cursor w' = Some c
    /\ 0 <= c <= log_length self - 1
    /\ (0 < adjust /\ cursor self = log_length self - 1 -> c = 0)
    /\ (~ (0 < adjust /\ cursor self = log_length self - 1) ->
        c = clamp 0 (log_length self - 1) (cursor self + adjust))
    /\ (adjust < 0 /\ cursor self = 0 -> c = 0).
Proof.
  intros HL Hk Ha.
  destruct (HistoryViewer_scroll self sym adjust w Hk Ha)
    as (c & Hrun & Htop & Hwrap & Hclamp).
  exists c. cbv zeta.
  assert (Hc : (0 < adjust /\ cursor self = log_length self - 1 -> c = 0)
               /\ (~ (0 < adjust /\ cursor self = log_length self - 1) ->
                   c = clamp 0 (log_length self - 1) (cursor self + adjust))).
  { unfold clamp in *. split; intros H.
    - apply Hwrap; [lia | exact H].
    - destruct (Z.lt_ge_cases adjust 0) as [Hn | Hn];
        destruct (Z.eq_dec (cursor self) 0) as [Hz | Hz];
        try (apply Hclamp; [lia | exact H]).
      rewrite Htop by lia. lia. }
  destruct Hc as [Hc1 Hc2].
  split; [exact Hrun |].
  split; [unfold handle_events, bind; simpl; now rewrite Hrun |].
  split; [reflexivity |].
  split.
  - destruct (Z.lt_ge_cases 0 adjust) as [Hp | Hp];
      destruct (Z.eq_dec (cursor self) (log_length self - 1)) as [He | He];
      try (rewrite Hc2 by lia; unfold clamp; lia).
    rewrite Hc1 by lia. lia.
  - split; [exact Hc1 |]. split; [exact Hc2 |].
    intros [Hn Hz]. rewrite Hc2 by lia. unfold clamp. lia.
Qed.

(** C7.  In the history viewer [HOME] sets the cursor to [0] and [END]
    sets it to [log_length - 1], the viewer staying active; a key that is
    neither of them nor a key of [CURSOR_Y_KEYS] assigns the main handler
    to [engine.event_handler], once, changing nothing else.  None of the
    three returns an action or advances the turn. *)
Theorem history_home_end_other (self : HistoryViewer) (w : World) :
  (let w' := mkWorld
               (set_event_handler (History (mkHistoryViewer (log_length self) 0)) (engine w))
               (effects w) in
   dispatch (History self) (KeyDown KeySym.HOME) w = (Ok None, w')
   /\ handle_events (History self) (KeyDown KeySym.HOME) w = (Ok false, w')
   /\ active_cursor w' = Some 0)
  /\ (let w' := mkWorld
               (set_event_handler
                  (History (mkHistoryViewer (log_length self) (log_length self - 1)))
                  (engine w))
               (effects w) in
   dispatch (History self) (KeyDown KeySym.END) w = (Ok None, w')
   /\ handle_events (History self) (KeyDown KeySym.END) w = (Ok false, w')
   /\ active_cursor w' = Some (log_length self - 1))
  /\ (forall sym, is_history_key sym = false ->
        let w' := mkWorld (set_event_handler MainGameEventHandler (engine w))
                          (effects w ++ [SetEventHandler MainGameEventHandler]) in
        dispatch (History self) (KeyDown sym) w = (Ok None, w')
        /\ handle_events (History self) (KeyDown sym) w = (Ok false, w')
        /\ event_handler (engine w') = MainGameEventHandler).
Proof.
  split; [repeat split |]. split; [repeat split |].
  intros sym Hs. cbv zeta. unfold is_history_key in Hs.
  unfold handle_events, bind, dispatch, ev_keydown, HistoryViewer_ev_keydown.
  destruct (dict_get CURSOR_Y_KEYS sym); [discriminate |].
  apply orb_false_elim in Hs. destruct Hs as [-> ->]. repeat split.
Qed.

(** C5.  A viewer made by [HistoryViewer.__init__] has its cursor in
    range, and a key press in an active viewer whose cursor is in range
    either makes the main handler active or leaves a viewer with the same
    [log_length] and a cursor in range. *)
Theorem history_cursor_invariant :
  (forall e : Engine, cursor_in_range (HistoryViewer_init e))
  /\ (forall (self : HistoryViewer) (sym : KeySym.t) (w : World),
        event_handler (engine w) = History self ->
        cursor_in_range self ->
        exists w',
          step (KeyDown sym) w = (Ok false, w')
          /\ (event_handler (engine w') = MainGameEventHandler
              \/ exists self',
                   event_handler (engine w') = History self'
                   /\ log_length self' = log_length self
                   /\ cursor_in_range self')).
Proof.
  split.
  - intros e. unfold cursor_in_range, HistoryViewer_init. simpl. lia.
  - intros self sym w Ha Hin.
    unfold step, bind, get_engine. simpl. rewrite Ha.
    destruct (dict_get CURSOR_Y_KEYS sym) as [adjust |] eqn:Hk.
    + destruct (HistoryViewer_scroll self sym adjust w Hk Ha)
        as (c & Hrun & Htop & Hwrap & Hclamp).
      unfold handle_events, bind. simpl. rewrite Hrun. simpl.
      eexists. split; [reflexivity |]. right. eexists. simpl.
      split; [reflexivity |]. split; [reflexivity |].
      unfold cursor_in_range in *. simpl. intros HL. specialize (Hin HL).
      unfold clamp in *.
      destruct (Z.lt_ge_cases adjust 0);
        destruct (Z.eq_dec (cursor self) 0);
        destruct (Z.lt_ge_cases 0 adjust);
        destruct (Z.eq_dec (cursor self) (log_length self - 1));
        first [ rewrite Htop by lia; lia
              | rewrite Hwrap by lia; lia
              | rewrite Hclamp by lia; lia ].
    + unfold handle_events, bind, dispatch, ev_keydown, HistoryViewer_ev_keydown.
      rewrite Hk.
      destruct (KeySym.eqb sym KeySym.HOME); [| destruct (KeySym.eqb sym KeySym.END)];
        simpl; (eexists; split; [reflexivity |]); simpl.
      * right. eexists. split; [reflexivity |]. split; [reflexivity |].
        unfold cursor_in_range. simpl. lia.
      * right. eexists. split; [reflexivity |]. split; [reflexivity |].
        unfold cursor_in_range. simpl. lia.
      * now left.
Qed.


(** A viewer opened on an empty log: its cursor is [-1] or [0], the log is
    still empty, and a key that keeps the viewer open keeps all that. *)
Lemma empty_history_step (self : HistoryViewer) (sym : KeySym.t) (w : World) :
  event_handler (engine w) = History self ->
  log_length self = 0 ->
  cursor self = -1 \/ cursor self = 0 ->
  messages (message_log (engine w)) = [] ->
  is_history_key sym = true ->
  exists self' w',
    step (KeyDown sym) w = (Ok false, w')
    /\ event_handler (engine w') = History self'
    /\ log_length self' = 0
    /\ (cursor self' = -1 \/ cursor self' = 0)
    /\ messages (message_log (engine w')) = [].
Proof.
  intros Ha HL Hc Hm Hs.
  destruct self as [L c]. simpl in HL, Hc. subst L.
  unfold step, bind, get_engine. simpl. rewrite Ha.
  unfold handle_events, bind, dispatch, ev_keydown, HistoryViewer_ev_keydown.
  destruct sym; try discriminate Hs; simpl;
    destruct Hc as [-> | ->]; simpl;
    (eexists; eexists; split; [reflexivity |]); simpl;
    try (split; [reflexivity |]); try (split; [reflexivity |]);
    try (split; [tauto | exact Hm]).
  all: split; [exact Ha |]; split; [reflexivity |]; split; [tauto | exact Hm].
Qed.

Lemma empty_history_run (keys : list KeySym.t) :
  forall (self : HistoryViewer) (w : World),
    event_handler (engine w) = History self ->
    log_length self = 0 ->
    cursor self = -1 \/ cursor self = 0 ->
    messages (message_log (engine w)) = [] ->
    forallb is_history_key keys = true ->
    exists self' w',
      run (map KeyDown keys) w = (Ok tt, w')
      /\ event_handler (engine w') = History self'
      /\ log_length self' = 0
      /\ (cursor self' = -1 \/ cursor self' = 0)
      /\ messages (message_log (engine w')) = [].
Proof.
  induction keys as [| sym keys IH]; intros self w Ha HL Hc Hm Hk.
  - exists self, w. simpl. tauto.
  - simpl in Hk. apply andb_true_iff in Hk. destruct Hk as [Hs Hk].
    destruct (empty_history_step self sym w Ha HL Hc Hm Hs)
      as (self1 & w1 & Hstep & Ha1 & HL1 & Hc1 & Hm1).
    destruct (IH self1 w1 Ha1 HL1 Hc1 Hm1 Hk) as (self2 & w2 & Hrun & Hrest).
    exists self2, w2. split; [| exact Hrest].
    simpl. rewrite Hstep. exact Hrun.
Qed.

Lemma slice_to_nil {A : Type} (stop : Z) : slice_to (@nil A) stop = [].
Proof. unfold slice_to. now rewrite firstn_nil. Qed.

(** C10.  When the key [v] opens the history viewer on an empty log, the
    viewer has [log_length = 0] and cursor [-1], and the slice it renders
    is empty; after any sequence of keys among the scroll keys, [HOME] and
    [END] the viewer is still the active handler and the slice it renders
    is still empty (the cursor is then [-1] or [0], and the log is still
    empty). *)
Theorem empty_log_history_stays_empty (w : World) (keys : list KeySym.t) :
  messages (message_log (engine w)) = [] ->
  forallb is_history_key keys = true ->
  exists w1,
    handle_events MainGameEventHandler (KeyDown KeySym.v) w = (Ok false, w1)
    /\ event_handler (engine w1) = History (mkHistoryViewer 0 (-1))
    /\ on_render_messages (mkHistoryViewer 0 (-1)) (engine w1) = []
    /\ exists self w2,
         run (map KeyDown keys) w1 = (Ok tt, w2)
         /\ event_handler (engine w2) = History self
         /\ log_length self = 0
         /\ (cursor self = -1 \/ cursor self = 0)
         /\ on_render_messages self (engine w2) = [].
Proof.
  intros Hm Hk.
  exists (mkWorld (set_event_handler (History (mkHistoryViewer 0 (-1))) (engine w))
                  (effects w ++ [SetEventHandler (History (mkHistoryViewer 0 (-1)))])).
  split.
  { unfold handle_events, bind, dispatch, ev_keydown, MainGameEventHandler_ev_keydown,
      bind, get_engine, HistoryViewer_init.
    simpl. rewrite Hm. reflexivity. }
  split; [reflexivity |].
  split; [unfold on_render_messages; simpl; rewrite Hm; reflexivity |].
  destruct (empty_history_run keys (mkHistoryViewer 0 (-1))
              (mkWorld (set_event_handler (History (mkHistoryViewer 0 (-1))) (engine w))
                       (effects w ++ [SetEventHandler (History (mkHistoryViewer 0 (-1)))])))
    as (self & w2 & Hrun & Ha & HL & Hc & Hm2);
    [reflexivity | reflexivity | now left | exact Hm | exact Hk |].
  exists self, w2. split; [exact Hrun |]. split; [exact Ha |].
  split; [exact HL |]. split; [exact Hc |].
  unfold on_render_messages. rewrite Hm2. apply slice_to_nil.
Qed.


(** * Further properties of the handlers *)

(** The entity an action was built for. *)
Definition action_entity (a : Action) : Entity :=
  match a with
  | BumpAction entity _ _ => entity
  | EscapeAction entity => entity
  | PickupAction entity => entity
  | WaitAction entity => entity
  end.

(** The pointer location the engine stores is a tile of its map. *)
Definition mouse_in_bounds (e : Engine) : bool :=
  in_bounds (game_map e) (fst (mouse_location e)) (snd (mouse_location e)).

Lemma set_mouse_location_same (e : Engine) :
  set_mouse_location (mouse_location e) e = e.
Proof. now destruct e. Qed.

Lemma run_app (evs1 evs2 : list Event) (w : World) :
  run (evs1 ++ evs2) w =
    match run evs1 w with
    | (Ok _, w1) => run evs2 w1
    | (Raise exc, w1) => (Raise exc, w1)
    end.
Proof.
  revert w. induction evs1 as [| ev evs1 IH]; intros w; simpl.
  - reflexivity.
  - destruct (step ev w) as [[b | exc] w1]; [apply IH | reflexivity].
Qed.

(** ** The main handler *)

(** X1.  In the main handler a key press never raises.  It returns an
    action exactly for the keys of [MOVE_KEYS], [PERIOD], [ESCAPE] and [g];
    every action it returns is one of [engine.player]; and [v] is the only
    key that changes anything. *)
Theorem main_keys_classification (key : KeySym.t) (w : World) :
  exists r w',
    dispatch MainGameEventHandler (KeyDown key) w = (Ok r, w')
    /\ (key <> KeySym.v -> w' = w)
    /\ (r = None <->
        dict_get MOVE_KEYS key = None /\ key <> KeySym.PERIOD
        /\ key <> KeySym.ESCAPE /\ key <> KeySym.g)
    /\ (forall a, r = Some a -> action_entity a = player (engine w)).
Proof.
  unfold dispatch, ev_keydown, MainGameEventHandler_ev_keydown, bind, get_engine.
  destruct key; simpl; (eexists; eexists; split; [reflexivity |]);
    (split; [intros H; try reflexivity; now contradiction H |]);
    (split; [split; [intros H; try discriminate H; repeat split; discriminate
                    | intros (H1 & H2 & H3 & H4);
                      try discriminate H1; try reflexivity;
                      first [now contradiction H2 | now contradiction H3
                            | now contradiction H4] ] |]);
    intros a Ha; try discriminate Ha; inversion Ha; reflexivity.
Qed.

(** X2.  A key the main handler has no binding for is ignored: the engine
    is left as it was, nothing is called and the turn does not advance. *)
Theorem main_unbound_key_ignored (key : KeySym.t) (w : World) :
  dict_get MOVE_KEYS key = None ->
  set_in key WAIT_KEYS = false ->
  key <> KeySym.ESCAPE -> key <> KeySym.v -> key <> KeySym.g ->
  handle_events MainGameEventHandler (KeyDown key) w = (Ok false, w).
Proof.
  intros Hm Hw He Hv Hg.
  unfold handle_events, bind, dispatch, ev_keydown, MainGameEventHandler_ev_keydown,
    bind, get_engine.
  rewrite Hm, Hw.
  rewrite (KeySym_eqb_neq _ _ He), (KeySym_eqb_neq _ _ Hv), (KeySym_eqb_neq _ _ Hg).
  reflexivity.
Qed.

(** X3.  The move table is the eight neighbours of a tile: every entry is
    a step of at most one in each direction and never [(0, 0)], every such
    step has a key, and no two keys share a step. *)
Theorem MOVE_KEYS_eight_neighbours :
  (forall key dx dy,
     dict_get MOVE_KEYS key = Some (dx, dy) ->
     -1 <= dx <= 1 /\ -1 <= dy <= 1 /\ (dx, dy) <> (0, 0))
  /\ (forall dx dy,
        -1 <= dx <= 1 -> -1 <= dy <= 1 -> (dx, dy) <> (0, 0) ->
        exists key, dict_get MOVE_KEYS key = Some (dx, dy))
  /\ (forall k1 k2 d,
        dict_get MOVE_KEYS k1 = Some d -> dict_get MOVE_KEYS k2 = Some d -> k1 = k2).
Proof.
  split; [| split].
  - intros key dx dy H.
    destruct key; simpl in H; try discriminate H; inversion H; subst;
      (split; [lia |]); (split; [lia | discriminate]).
  - intros dx dy Hx Hy Hn.
    assert (Hdx : dx = -1 \/ dx = 0 \/ dx = 1) by lia.
    assert (Hdy : dy = -1 \/ dy = 0 \/ dy = 1) by lia.
    destruct Hdx as [-> | [-> | ->]]; destruct Hdy as [-> | [-> | ->]];
      try (now contradiction Hn).
    + now exists KeySym.HOME.
    + now exists KeySym.LEFT.
    + now exists KeySym.END.
    + now exists KeySym.UP.
    + now exists KeySym.DOWN.
    + now exists KeySym.PAGEUP.
    + now exists KeySym.RIGHT.
    + now exists KeySym.PAGEDOWN.
  - intros k1 k2 d H1 H2.
    destruct k1; simpl in H1; try discriminate H1; inversion H1; subst d;
      destruct k2; simpl in H2; try discriminate H2; reflexivity.
Qed.


(** ** The turn resolver *)

(** X4.  [handle_action] calls [perform] once, first.  It returns [True]
    exactly when [perform] returned, and [handle_enemy_turns] and
    [update_fov] are called exactly then: a turn is spent on an action
    that was performed, and on nothing else. *)
Theorem handle_action_turn_iff_performed (a : Action) (w : World) :
  exists r w' calls,
    handle_action (Some a) w = (r, w')
    /\ effects w' = effects w ++ Perform a :: calls
    /\ (r = Ok true <-> fst (perform a (engine w)) = Ok tt)
    /\ (In HandleEnemyTurns calls <-> r = Ok true)
    /\ (In UpdateFov calls <-> r = Ok true)
    /\ (forall a', ~ In (Perform a') calls).
Proof.
  unfold handle_action, bind, except_Impossible, action_perform, bind, emit,
    engine_add_message, engine_handle_enemy_turns, engine_update_fov, bind, emit,
    modify_engine, ret.
  simpl.
  destruct (perform a (engine w)) as [[[] | [msg | ]] e1] eqn:Hp; simpl.
  - exists (Ok true), (mkWorld (update_fov (handle_enemy_turns e1))
                         (((effects w ++ [Perform a]) ++ [HandleEnemyTurns]) ++ [UpdateFov])),
      [HandleEnemyTurns; UpdateFov].
    split; [reflexivity |]. simpl. split; [now rewrite <- !app_assoc |].
    repeat split; try tauto.
    intros a' [H | [H | []]]; discriminate H.
  - exists (Ok false),
      (mkWorld (set_message_log (add_message msg impossible (message_log e1)) e1)
         ((effects w ++ [Perform a]) ++ [AddMessage msg impossible])),
      [AddMessage msg impossible].
    split; [reflexivity |]. simpl. split; [now rewrite <- !app_assoc |].
    repeat split; try discriminate.
    + intros [H | []]; discriminate H.
    + intros [H | []]; discriminate H.
    + intros a' [H | []]; discriminate H.
  - exists (Raise SystemExit), (mkWorld e1 (effects w ++ [Perform a])), [].
    split; [reflexivity |]. simpl. split; [reflexivity |].
    repeat split; try discriminate; try contradiction.
    intros a' [].
Qed.

(** X5.  [Impossible] never leaves [handle_action]: an exception comes out
    of it only when [perform] raised one that is not [Impossible], and
    then nothing was added to the log and no further call was made. *)
Theorem handle_action_catches_impossible_only (a : Action) (w : World) :
  (forall msg, fst (handle_action (Some a) w) <> Raise (Impossible msg))
  /\ (forall exc,
        fst (handle_action (Some a) w) = Raise exc ->
        fst (perform a (engine w)) = Raise exc
        /\ snd (handle_action (Some a) w) =
             mkWorld (snd (perform a (engine w))) (effects w ++ [Perform a]))
  /\ (forall msg,
        fst (perform a (engine w)) = Raise (Impossible msg) ->
        fst (handle_action (Some a) w) = Ok false).
Proof.
  unfold handle_action, bind, except_Impossible, action_perform, bind, emit,
    engine_add_message, engine_handle_enemy_turns, engine_update_fov, bind, emit,
    modify_engine, ret.
  simpl.
  destruct (perform a (engine w)) as [[[] | [msg | ]] e1] eqn:Hp; simpl;
    (split; [intros m; discriminate |]);
    (split; [intros exc H; try discriminate H; inversion H; split; reflexivity |]);
    intros m H; try discriminate H; reflexivity.
Qed.

(** ** Termination requests *)

(** X6.  Whatever the active handler, a [Quit] event raises [SystemExit]
    before anything is changed or called, and no later event is handled. *)
Theorem quit_ends_the_run (evs rest : list Event) (w w1 : World) :
  run evs w = (Ok tt, w1) ->
  run (evs ++ Quit :: rest) w = (Raise SystemExit, w1).
Proof.
  intros H. rewrite run_app, H. simpl.
  unfold step, bind, get_engine. simpl.
  now destruct (event_handler (engine w1)).
Qed.

(** ** The game-over handler *)

(** X7.  Once the game-over handler is active no sequence of key presses
    changes anything or makes another handler active; the first [ESCAPE]
    raises [SystemExit], and the keys after it are never handled. *)
Theorem game_over_is_final (keys rest : list KeySym.t) (w : World) :
  event_handler (engine w) = GameOverEventHandler ->
  forallb (fun k => negb (KeySym.eqb k KeySym.ESCAPE)) keys = true ->
  run (map KeyDown keys) w = (Ok tt, w)
  /\ run (map KeyDown (keys ++ KeySym.ESCAPE :: rest)) w = (Raise SystemExit, w).
Proof.
  intros Ha Hk.
  assert (Hrun : run (map KeyDown keys) w = (Ok tt, w)).
  { induction keys as [| k keys IH]; [reflexivity |].
    simpl in Hk. apply andb_true_iff in Hk. destruct Hk as [Hk1 Hk2].
    apply negb_true_iff in Hk1.
    simpl. unfold step, bind, get_engine. simpl. rewrite Ha.
    unfold handle_events, bind. simpl.
    unfold GameOverEventHandler_ev_keydown. rewrite Hk1. simpl. now apply IH. }
  split; [exact Hrun |].
  rewrite map_app, run_app, Hrun. simpl.
  unfold step, bind, get_engine. simpl. now rewrite Ha.
Qed.

(** ** Pointer motion *)

(** X8.  If the stored pointer location is a tile of the map, it still is
    after any sequence of pointer-motion events, handled by whatever
    handler is active; the events change nothing else in the engine and
    call nothing. *)
Theorem mouse_location_stays_in_bounds (tiles : list (Z * Z)) (w : World) :
  mouse_in_bounds (engine w) = true ->
  exists loc,
    run (map (fun t => MouseMotion (fst t) (snd t)) tiles) w =
      (Ok tt, mkWorld (set_mouse_location loc (engine w)) (effects w))
    /\ in_bounds (game_map (engine w)) (fst loc) (snd loc) = true
    /\ (loc = mouse_location (engine w) \/ In loc tiles).
Proof.
  revert w. induction tiles as [| [x y] tiles IH]; intros w Hin.
  - exists (mouse_location (engine w)). simpl.
    rewrite set_mouse_location_same, World_eta. auto.
  - simpl. unfold step, bind, get_engine. simpl.
    assert (Hd : forall h, handle_events h (MouseMotion x y) w =
                   (Ok false,
                    if in_bounds (game_map (engine w)) x y
                    then mkWorld (set_mouse_location (x, y) (engine w)) (effects w)
                    else w)).
    { intros h. unfold handle_events, bind. simpl.
      unfold ev_mousemotion, bind, get_engine.
      now destruct (in_bounds (game_map (engine w)) x y). }
    rewrite Hd. destruct (in_bounds (game_map (engine w)) x y) eqn:Hb.
    + destruct (IH (mkWorld (set_mouse_location (x, y) (engine w)) (effects w)))
        as (loc & Hrun & Hloc & Hor).
      { unfold mouse_in_bounds. simpl. exact Hb. }
      exists loc. simpl in Hrun, Hloc, Hor. rewrite Hrun.
      split; [reflexivity |]. split; [exact Hloc |].
      right. simpl. destruct Hor as [-> | H]; [now left | now right].
    + destruct (IH w Hin) as (loc & Hrun & Hloc & Hor).
      exists loc. rewrite Hrun. split; [reflexivity |]. split; [exact Hloc |].
      destruct Hor as [-> | H]; [now left | right; now right].
Qed.


(** ** The history viewer over several key presses *)

(** One key that keeps the viewer open: only the cursor changes. *)
Lemma history_key_step (self : HistoryViewer) (sym : KeySym.t) (w : World) :
  event_handler (engine w) = History self ->
  is_history_key sym = true ->
  exists c,
    step (KeyDown sym) w =
      (Ok false,
       mkWorld (set_event_handler (History (mkHistoryViewer (log_length self) c)) (engine w))
               (effects w))
    /\ (cursor_in_range self -> cursor_in_range (mkHistoryViewer (log_length self) c))
    /\ (0 <= log_length self -> -1 <= cursor self -> -1 <= c).
Proof.
  intros Ha Hs. unfold step, bind, get_engine. simpl. rewrite Ha.
  unfold is_history_key in Hs.
  destruct (dict_get CURSOR_Y_KEYS sym) as [adjust |] eqn:Hk.
  - destruct (HistoryViewer_scroll self sym adjust w Hk Ha)
      as (c & Hrun & Htop & Hwrap & Hclamp).
    exists c. unfold handle_events, bind. simpl. rewrite Hrun. simpl.
    split; [reflexivity |].
    unfold cursor_in_range, clamp in *. simpl.
    split; intros;
      destruct (Z.lt_ge_cases adjust 0);
      destruct (Z.eq_dec (cursor self) 0);
      destruct (Z.lt_ge_cases 0 adjust);
      destruct (Z.eq_dec (cursor self) (log_length self - 1));
      first [ rewrite Htop by lia; lia
            | rewrite Hwrap by lia; lia
            | rewrite Hclamp by lia; lia ].
  - unfold handle_events, bind, dispatch, ev_keydown, HistoryViewer_ev_keydown.
    rewrite Hk.
    destruct (KeySym.eqb sym KeySym.HOME); [| destruct (KeySym.eqb sym KeySym.END)];
      try discriminate Hs; simpl;
      (eexists; split; [reflexivity |]); unfold cursor_in_range; simpl; split; lia.
Qed.

(** The same over a sequence of such keys. *)
Lemma history_keys_run (keys : list KeySym.t) :
  forall (self : HistoryViewer) (w : World),
    event_handler (engine w) = History self ->
    forallb is_history_key keys = true ->
    exists c,
      run (map KeyDown keys) w =
        (Ok tt,
         mkWorld (set_event_handler (History (mkHistoryViewer (log_length self) c)) (engine w))
                 (effects w))
      /\ (cursor_in_range self -> cursor_in_range (mkHistoryViewer (log_length self) c))
      /\ (0 <= log_length self -> -1 <= cursor self -> -1 <= c).
Proof.
  induction keys as [| sym keys IH]; intros self w Ha Hk.
  - exists (cursor self). simpl. split; [| split; [| tauto]].
    + rewrite <- (World_eta w) at 1. do 2 f_equal.
      rewrite <- (set_event_handler_same (engine w)) at 1. rewrite Ha.
      now destruct self.
    + now destruct self.
  - simpl in Hk. apply andb_true_iff in Hk. destruct Hk as [Hs Hk].
    destruct (history_key_step self sym w Ha Hs) as (c1 & Hstep & Hin1 & Hlow1).
    destruct (IH (mkHistoryViewer (log_length self) c1)
                (mkWorld (set_event_handler
                            (History (mkHistoryViewer (log_length self) c1)) (engine w))
                         (effects w))
                eq_refl Hk)
      as (c & Hrun & Hin & Hlow).
    exists c. simpl. rewrite Hstep. simpl in Hrun, Hin, Hlow. rewrite Hrun.
    split; [reflexivity |]. split; [tauto |].
    intros H0 H1. apply Hlow; [exact H0 |]. now apply Hlow1.
Qed.

(** X9.  While only scroll keys, [HOME] and [END] are pressed, the viewer
    stays the active handler and nothing raises; only its cursor changes:
    the message log, the pointer, the map, the player and [log_length] are
    as before and nothing is called, so no turn passes.  A cursor in range
    stays in range, and the cursor never goes below [-1]. *)
Theorem history_session_frame
  (keys : list KeySym.t) (self : HistoryViewer) (w : World) :
  event_handler (engine w) = History self ->
  forallb is_history_key keys = true ->
  exists c,
    run (map KeyDown keys) w =
      (Ok tt,
       mkWorld (set_event_handler (History (mkHistoryViewer (log_length self) c)) (engine w))
               (effects w))
    /\ (cursor_in_range self -> cursor_in_range (mkHistoryViewer (log_length self) c))
    /\ (0 <= log_length self -> -1 <= cursor self -> -1 <= c).
Proof. apply history_keys_run. Qed.

(** X10.  From a cursor in range, [n] presses of [UP] bring the cursor to
    [max(0, cursor - n)]: [UP] stops at the oldest message. *)
Theorem history_up_n (n : nat) :
  forall (self : HistoryViewer) (w : World),
    event_handler (engine w) = History self ->
    0 <= cursor self <= log_length self - 1 ->
    run (map KeyDown (repeat KeySym.UP n)) w =
      (Ok tt,
       mkWorld (set_event_handler
                  (History (mkHistoryViewer (log_length self)
                              (Z.max 0 (cursor self - Z.of_nat n))))
                  (engine w))
               (effects w)).
Proof.
  induction n as [| n IH]; intros self w Ha Hc.
  - simpl. rewrite Z.sub_0_r, Z.max_r by lia.
    rewrite <- (World_eta w) at 1. do 2 f_equal.
    rewrite <- (set_event_handler_same (engine w)) at 1. rewrite Ha.
    now destruct self.
  - assert (Hn : Z.of_nat (S n) = Z.of_nat n + 1) by lia.
    cbn [repeat map run]. unfold step, bind, get_engine. cbn [engine fst snd]. rewrite Ha.
    unfold handle_events, bind, dispatch, ev_keydown, HistoryViewer_ev_keydown.
    rewrite Hn. clear Hn.
    change (dict_get CURSOR_Y_KEYS KeySym.UP) with (Some (-1)).
    change (-1 <? 0) with true. change (0 <? -1) with false. cbn [andb].
    destruct (Z.eqb_spec (cursor self) 0) as [Hz | Hz].
    + cbn. rewrite (IH self w Ha Hc).
      replace (Z.max 0 (cursor self - (Z.of_nat n + 1)))
        with (Z.max 0 (cursor self - Z.of_nat n)) by lia.
      reflexivity.
    + cbn -[Z.max Z.min Z.add Z.sub Z.of_nat].
      rewrite (IH (mkHistoryViewer (log_length self)
                     (Z.max 0 (Z.min (cursor self + -1) (log_length self - 1))))
                  (mkWorld (set_event_handler
                              (History (mkHistoryViewer (log_length self)
                                 (Z.max 0 (Z.min (cursor self + -1) (log_length self - 1)))))
                              (engine w))
                           (effects w))
                  eq_refl) by (cbn [cursor log_length]; lia).
      cbn [cursor log_length engine effects].
      replace (Z.max 0 (Z.max 0 (Z.min (cursor self + -1) (log_length self - 1)) - Z.of_nat n))
        with (Z.max 0 (cursor self - (Z.of_nat n + 1))) by lia.
      reflexivity.
Qed.

(** X11.  From a cursor in range, [n] presses of [DOWN] bring the cursor to
    [(cursor + n) mod log_length]: [DOWN] goes round the log, and
    [log_length] presses bring the cursor back where it was. *)
Theorem history_down_n (n : nat) :
  forall (self : HistoryViewer) (w : World),
    event_handler (engine w) = History self ->
    0 <= cursor self <= log_length self - 1 ->
    run (map KeyDown (repeat KeySym.DOWN n)) w =
      (Ok tt,
       mkWorld (set_event_handler
                  (History (mkHistoryViewer (log_length self)
                              ((cursor self + Z.of_nat n) mod log_length self)))
                  (engine w))
               (effects w)).
Proof.
  induction n as [| n IH]; intros self w Ha Hc.
  - simpl. rewrite Z.add_0_r, Z.mod_small by lia.
    rewrite <- (World_eta w) at 1. do 2 f_equal.
    rewrite <- (set_event_handler_same (engine w)) at 1. rewrite Ha.
    now destruct self.
  - assert (Hn : Z.of_nat (S n) = Z.of_nat n + 1) by lia.
    cbn [repeat map run]. unfold step, bind, get_engine. cbn [engine fst snd]. rewrite Ha.
    unfold handle_events, bind, dispatch, ev_keydown, HistoryViewer_ev_keydown.
    rewrite Hn. clear Hn.
    change (dict_get CURSOR_Y_KEYS KeySym.DOWN) with (Some 1).
    change (1 <? 0) with false. change (0 <? 1) with true. cbn [andb].
    destruct (Z.eqb_spec (cursor self) (log_length self - 1)) as [Hl | Hl].
    + cbn -[Z.modulo Z.add Z.sub Z.of_nat].
      rewrite (IH (mkHistoryViewer (log_length self) 0)
                  (mkWorld (set_event_handler
                              (History (mkHistoryViewer (log_length self) 0)) (engine w))
                           (effects w))
                  eq_refl) by (cbn [cursor log_length]; lia).
      cbn [cursor log_length engine effects].
      replace (cursor self + (Z.of_nat n + 1))
        with (0 + Z.of_nat n + 1 * log_length self) by lia.
      rewrite Z.mod_add by lia. reflexivity.
    + cbn -[Z.max Z.min Z.modulo Z.add Z.sub Z.of_nat].
      rewrite (IH (mkHistoryViewer (log_length self)
                     (Z.max 0 (Z.min (cursor self + 1) (log_length self - 1))))
                  (mkWorld (set_event_handler
                              (History (mkHistoryViewer (log_length self)
                                 (Z.max 0 (Z.min (cursor self + 1) (log_length self - 1)))))
                              (engine w))
                           (effects w))
                  eq_refl) by (cbn [cursor log_length]; lia).
      cbn [cursor log_length engine effects].
      replace (Z.max 0 (Z.min (cursor self + 1) (log_length self - 1)) + Z.of_nat n)
        with (cursor self + (Z.of_nat n + 1)) by lia.
      reflexivity.
Qed.


(** ** Opening and closing the history *)

Lemma slice_to_nonneg {A : Type} (l : list A) (stop : Z) :
  0 <= stop -> slice_to l stop = firstn (Z.to_nat stop) l.
Proof.
  intros H. unfold slice_to.
  destruct (Z.ltb_spec stop 0) as [Hn | _]; [lia |].
  destruct (Z.le_gt_cases stop (Z.of_nat (List.length l))) as [Hle | Hgt].
  - now rewrite Z.min_l by lia.
  - rewrite Z.min_r by lia. rewrite Nat2Z.id.
    rewrite firstn_all. symmetry. apply firstn_all2. lia.
Qed.

(** The main handler's [v] key, from the main handler. *)
Lemma main_v_step (w : World) :
  event_handler (engine w) = MainGameEventHandler ->
  step (KeyDown KeySym.v) w =
    (Ok false,
     mkWorld (set_event_handler (History (HistoryViewer_init (engine w))) (engine w))
             (effects w ++ [SetEventHandler (History (HistoryViewer_init (engine w)))])).
Proof.
  intros Ha. unfold step, bind, get_engine. cbn [engine fst snd]. now rewrite Ha.
Qed.

(** X12.  A viewer that has just been made shows the whole log. *)
Theorem history_opens_on_whole_log (e : Engine) :
  on_render_messages (HistoryViewer_init e) e = messages (message_log e).
Proof.
  unfold on_render_messages, HistoryViewer_init. cbn [cursor].
  rewrite slice_to_nonneg by lia.
  replace (Z.of_nat (List.length (messages (message_log e))) - 1 + 1)
    with (Z.of_nat (List.length (messages (message_log e)))) by lia.
  rewrite Nat2Z.id. apply firstn_all.
Qed.

(** X13.  Opening the history with [v], pressing any scroll, [HOME] and
    [END] keys, and closing it with any other key gives back the engine
    as it was before [v]: the only effects are the two assignments of the
    handler, and no turn has passed. *)
Theorem history_open_close_restores
  (keys : list KeySym.t) (close : KeySym.t) (w : World) :
  event_handler (engine w) = MainGameEventHandler ->
  forallb is_history_key keys = true ->
  is_history_key close = false ->
  run (KeyDown KeySym.v :: map KeyDown keys ++ [KeyDown close]) w =
    (Ok tt,
     mkWorld (engine w)
             (effects w ++ [SetEventHandler (History (HistoryViewer_init (engine w)));
                            SetEventHandler MainGameEventHandler])).
Proof.
  intros Ha Hk Hc. cbn [run]. rewrite (main_v_step w Ha). rewrite run_app.
  destruct (history_keys_run keys (HistoryViewer_init (engine w))
              (mkWorld (set_event_handler (History (HistoryViewer_init (engine w))) (engine w))
                       (effects w ++ [SetEventHandler (History (HistoryViewer_init (engine w)))]))
              eq_refl Hk)
    as (c & Hrun & _ & _).
  rewrite Hrun. cbn [run]. unfold step, bind, get_engine.
  cbn [engine effects fst snd event_handler set_event_handler].
  unfold handle_events, bind, dispatch, ev_keydown, HistoryViewer_ev_keydown.
  unfold is_history_key in Hc.
  destruct (dict_get CURSOR_Y_KEYS close); [discriminate Hc |].
  apply orb_false_elim in Hc. destruct Hc as [-> ->].
  cbn. rewrite <- app_assoc. cbn. do 2 f_equal.
  transitivity (set_event_handler (event_handler (engine w)) (engine w));
    [rewrite Ha; reflexivity | apply set_event_handler_same].
Qed.

(** X14.  However the cursor was moved after [v], the viewer renders a
    prefix of the log as it was when [v] was pressed: the first
    [cursor + 1] messages, where [cursor + 1] is never negative; when the
    log is not empty the prefix has between one and [log_length]
    messages, so the oldest message is always shown. *)
Theorem history_renders_prefix (keys : list KeySym.t) (w : World) :
  event_handler (engine w) = MainGameEventHandler ->
  forallb is_history_key keys = true ->
  exists c w',
    run (KeyDown KeySym.v :: map KeyDown keys) w = (Ok tt, w')
    /\ event_handler (engine w') =
         History (mkHistoryViewer
                    (Z.of_nat (List.length (messages (message_log (engine w))))) c)
    /\ -1 <= c
    /\ on_render_messages
         (mkHistoryViewer (Z.of_nat (List.length (messages (message_log (engine w))))) c)
         (engine w')
       = firstn (Z.to_nat (c + 1)) (messages (message_log (engine w)))
    /\ (messages (message_log (engine w)) <> [] ->
        (1 <= List.length
                (on_render_messages
                   (mkHistoryViewer
                      (Z.of_nat (List.length (messages (message_log (engine w))))) c)
                   (engine w'))
           <= List.length (messages (message_log (engine w))))%nat).
Proof.
  intros Ha Hk. cbn [run]. rewrite (main_v_step w Ha).
  destruct (history_keys_run keys (HistoryViewer_init (engine w))
              (mkWorld (set_event_handler (History (HistoryViewer_init (engine w))) (engine w))
                       (effects w ++ [SetEventHandler (History (HistoryViewer_init (engine w)))]))
              eq_refl Hk)
    as (c & Hrun & Hin & Hlow).
  rewrite Hrun. exists c. eexists. split; [reflexivity |].
  cbn [engine event_handler set_event_handler HistoryViewer_init log_length cursor] in *.
  split; [reflexivity |].
  assert (Hc : -1 <= c) by (apply Hlow; lia).
  split; [exact Hc |].
  unfold on_render_messages.
  cbn [engine message_log set_event_handler cursor].
  rewrite slice_to_nonneg by lia.
  split; [reflexivity |].
  intros Hne.
  assert (Hlen : (0 < List.length (messages (message_log (engine w))))%nat).
  { destruct (messages (message_log (engine w))); [now contradiction Hne | simpl; lia]. }
  assert (Hr : 0 <= c <= Z.of_nat (List.length (messages (message_log (engine w)))) - 1).
  { unfold cursor_in_range in Hin. cbn [log_length cursor] in Hin.
    apply Hin; [unfold HistoryViewer_init; cbn [log_length cursor]; lia | lia]. }
  rewrite length_firstn. lia.
Qed.

End InputHandlers.

Arguments BumpAction {Entity} entity dx dy.
Arguments EscapeAction {Entity} entity.
Arguments PickupAction {Entity} entity.
Arguments WaitAction {Entity} entity.
Arguments mkMessageLog {Color} messages.
Arguments messages {Color} m.
Arguments mkEngine {Entity GameMap Color} event_handler message_log mouse_location game_map player.
Arguments event_handler {Entity GameMap Color} e.
Arguments message_log {Entity GameMap Color} e.
Arguments mouse_location {Entity GameMap Color} e.
Arguments mkWorld {Entity GameMap Color} engine effects.
Arguments engine {Entity GameMap Color} w.
Arguments effects {Entity GameMap Color} w.
Arguments Perform {Entity Color} a.
Arguments AddMessage {Entity Color} text fg.
Arguments HandleEnemyTurns {Entity Color}.
Arguments UpdateFov {Entity Color}.
Arguments SetEventHandler {Entity Color} h.
Arguments active_cursor {Entity GameMap Color} w.
Arguments on_render_messages {Entity GameMap Color} self e.

(** * A concrete game

    An instance of the collaborators to run the handlers on: entities are
    names, a map is its width and height, a colour is an RGB triple.  A
    bump is blocked, there is nothing to pick up, escape exits, waiting
    succeeds; the enemies and the field of view leave the engine alone. *)

Module Demo.

Definition Entity : Type := string.
Definition GameMap : Type := (Z * Z)%type.
Definition Color : Type := (Z * Z * Z)%type.

Definition impossible : Color := (128, 128, 128).
Definition white : Color := (255, 255, 255).

Definition in_bounds (m : GameMap) (x y : Z) : bool :=
  (0 <=? x) && (x <? fst m) && (0 <=? y) && (y <? snd m).

Definition perform (a : Action Entity) (e : Engine Entity GameMap Color)
  : Result unit * Engine Entity GameMap Color :=
  match a with
  | BumpAction _ _ _ => (Raise (Impossible "That way is blocked."), e)
  | PickupAction _ => (Raise (Impossible "There is nothing here to pick up."), e)
  | EscapeAction _ => (Raise SystemExit, e)
  | WaitAction _ => (Ok tt, e)
  end.

Definition handle_enemy_turns (e : Engine Entity GameMap Color) := e.
Definition update_fov (e : Engine Entity GameMap Color) := e.

Definition handle_action :=
  handle_action Entity GameMap Color impossible perform handle_enemy_turns update_fov.
Definition dispatch := dispatch Entity GameMap Color in_bounds.
Definition handle_events :=
  handle_events Entity GameMap Color impossible in_bounds perform handle_enemy_turns update_fov.
Definition step :=
  step Entity GameMap Color impossible in_bounds perform handle_enemy_turns update_fov.
Definition run :=
  run Entity GameMap Color impossible in_bounds perform handle_enemy_turns update_fov.

(** A log of [n] messages. *)
Definition log_of (n : nat) : MessageLog Color :=
  mkMessageLog (repeat ("Hello and welcome, adventurer!"%string, white) n).

(** A game on an 80 x 43 map with [n] messages in the log and handler [h]. *)
Definition game (h : EventHandler) (n : nat) : World Entity GameMap Color :=
  mkWorld (mkEngine h (log_of n) (0, 0) (80, 43) "Player"%string) [].

End Demo.

(** ** The history viewer on a log of five messages *)

(** From the newest message, four [UP] keys bring the cursor to [0], a
    fifth leaves it there, and [END] brings it back to [4]. *)
Example history_five_up_then_end :
  active_cursor (snd (Demo.run (map KeyDown (repeat KeySym.UP 4))
                        (Demo.game (History (mkHistoryViewer 5 4)) 5))) = Some 0
  /\ active_cursor (snd (Demo.run (map KeyDown (repeat KeySym.UP 5))
                        (Demo.game (History (mkHistoryViewer 5 4)) 5))) = Some 0
  /\ active_cursor (snd (Demo.run (map KeyDown (repeat KeySym.UP 5 ++ [KeySym.END]))
                        (Demo.game (History (mkHistoryViewer 5 4)) 5))) = Some 4.
Proof. repeat split. Qed.

(** C1, as stated, fails.  On a log of five messages with the cursor on
    the last one (index [4]), [DOWN] (step [+1]) sets the cursor to [0];
    the clamp of [4 + 1] to [[0, 4]] is [4]. *)
Lemma history_down_at_last_wraps :
  0 < log_length (mkHistoryViewer 5 4)
  /\ dict_get CURSOR_Y_KEYS KeySym.DOWN = Some 1
  /\ event_handler (engine (Demo.game (History (mkHistoryViewer 5 4)) 5))
     = History (mkHistoryViewer 5 4)
  /\ active_cursor
       (snd (Demo.handle_events (History (mkHistoryViewer 5 4)) (KeyDown KeySym.DOWN)
               (Demo.game (History (mkHistoryViewer 5 4)) 5)))
     = Some 0
  /\ active_cursor
       (snd (Demo.handle_events (History (mkHistoryViewer 5 4)) (KeyDown KeySym.DOWN)
               (Demo.game (History (mkHistoryViewer 5 4)) 5)))
     <> Some (clamp 0 (5 - 1) (4 + 1)).
Proof.
  split; [reflexivity |]. split; [reflexivity |]. split; [reflexivity |].
  split; [reflexivity |]. vm_compute. discriminate.
Qed.

(** ** The theorems at work on the concrete game *)

(** [DOWN] on a log of five messages, cursor on the second: the cursor
    moves to the third. *)
Lemma history_scroll_keys_witness :
  exists c,
    active_cursor
      (snd (Demo.handle_events (History (mkHistoryViewer 5 1)) (KeyDown KeySym.DOWN)
              (Demo.game (History (mkHistoryViewer 5 1)) 5))) = Some c
    /\ c = clamp 0 (5 - 1) (1 + 1).
Proof.
  destruct (history_scroll_keys Demo.Entity Demo.GameMap Demo.Color Demo.impossible
              Demo.in_bounds Demo.perform Demo.handle_enemy_turns Demo.update_fov
              (mkHistoryViewer 5 1) KeySym.DOWN 1
              (Demo.game (History (mkHistoryViewer 5 1)) 5)
              eq_refl eq_refl eq_refl)
    as (c & _ & Hev & Hc & _ & _ & Hclamp & _).
  exists c. split.
  - unfold Demo.handle_events. rewrite Hev. exact Hc.
  - apply Hclamp. simpl. intros [_ H]. discriminate H.
Defined.

(** A bump into a wall: one message, no turn. *)
Lemma handle_action_impossible_witness :
  exists w',
    Demo.handle_action (Some (BumpAction "Player"%string 0 (-1)))
      (Demo.game MainGameEventHandler 2) = (Ok false, w')
    /\ List.length (messages (message_log (engine w'))) = 3%nat
    /\ effects w' =
         [Perform (BumpAction "Player"%string 0 (-1));
          AddMessage "That way is blocked."%string Demo.impossible].
Proof.
  destruct (handle_action_impossible Demo.Entity Demo.GameMap Demo.Color Demo.impossible
              Demo.perform Demo.handle_enemy_turns Demo.update_fov
              (BumpAction "Player"%string 0 (-1)) "That way is blocked."%string
              (Demo.game MainGameEventHandler 2)
              (engine (Demo.game MainGameEventHandler 2))
              eq_refl)
    as (w' & Hrun & Hm & _ & Heff & _).
  exists w'. split; [exact Hrun |]. split; [now rewrite Hm | exact Heff].
Defined.

(** Waiting: the enemies move, the field of view is recomputed. *)
Lemma handle_action_success_witness :
  Demo.perform (WaitAction "Player"%string) (engine (Demo.game MainGameEventHandler 2))
    = (Ok tt, engine (Demo.game MainGameEventHandler 2))
  /\ Demo.handle_action (Some (WaitAction "Player"%string))
       (Demo.game MainGameEventHandler 2)
     = (Ok true,
        mkWorld (engine (Demo.game MainGameEventHandler 2))
                [Perform (WaitAction "Player"%string); HandleEnemyTurns; UpdateFov]).
Proof.
  split; [reflexivity |].
  exact (handle_action_success Demo.Entity Demo.GameMap Demo.Color Demo.impossible
           Demo.perform Demo.handle_enemy_turns Demo.update_fov
           (WaitAction "Player"%string) (Demo.game MainGameEventHandler 2)
           (engine (Demo.game MainGameEventHandler 2)) eq_refl).
Defined.

(** [PAGEUP] with the cursor on the fourth of five messages. *)
Lemma history_cursor_invariant_witness :
  cursor_in_range (mkHistoryViewer 5 3)
  /\ exists w',
       Demo.step (KeyDown KeySym.PAGEUP) (Demo.game (History (mkHistoryViewer 5 3)) 5)
         = (Ok false, w')
       /\ (event_handler (engine w') = MainGameEventHandler
           \/ exists self',
                event_handler (engine w') = History self'
                /\ log_length self' = 5
                /\ cursor_in_range self').
Proof.
  assert (H : cursor_in_range (mkHistoryViewer 5 3))
    by (unfold cursor_in_range; simpl; lia).
  split; [exact H |].
  exact (proj2 (history_cursor_invariant Demo.Entity Demo.GameMap Demo.Color Demo.impossible
                  Demo.in_bounds Demo.perform Demo.handle_enemy_turns Demo.update_fov)
           (mkHistoryViewer 5 3) KeySym.PAGEUP
           (Demo.game (History (mkHistoryViewer 5 3)) 5) eq_refl H).
Defined.

(** [ESCAPE] closes the history viewer. *)
Lemma history_home_end_other_witness :
  is_history_key KeySym.ESCAPE = false
  /\ event_handler
       (engine (snd (Demo.handle_events (History (mkHistoryViewer 5 3))
                       (KeyDown KeySym.ESCAPE)
                       (Demo.game (History (mkHistoryViewer 5 3)) 5))))
     = MainGameEventHandler.
Proof.
  split; [reflexivity |].
  destruct (proj2 (proj2 (history_home_end_other Demo.Entity Demo.GameMap Demo.Color
                            Demo.impossible Demo.in_bounds Demo.perform
                            Demo.handle_enemy_turns Demo.update_fov
                            (mkHistoryViewer 5 3)
                            (Demo.game (History (mkHistoryViewer 5 3)) 5)))
              KeySym.ESCAPE eq_refl)
    as (_ & Hev & Hh).
  unfold Demo.handle_events. rewrite Hev. exact Hh.
Defined.

(** The pointer on tile (3, 4) of the map, then off the map. *)
Lemma mousemotion_in_bounds_only_witness :
  Demo.in_bounds (80, 43) 3 4 = true
  /\ Demo.in_bounds (80, 43) (-1) 2 = false
  /\ mouse_location
       (engine (snd (Demo.handle_events MainGameEventHandler (MouseMotion 3 4)
                       (Demo.game MainGameEventHandler 0)))) = (3, 4)
  /\ Demo.handle_events MainGameEventHandler (MouseMotion (-1) 2)
       (Demo.game MainGameEventHandler 0)
     = (Ok false, Demo.game MainGameEventHandler 0).
Proof.
  split; [reflexivity |]. split; [reflexivity |].
  destruct (mousemotion_in_bounds_only Demo.Entity Demo.GameMap Demo.Color Demo.impossible
              Demo.in_bounds Demo.perform Demo.handle_enemy_turns Demo.update_fov
              MainGameEventHandler 3 4 (Demo.game MainGameEventHandler 0))
    as [Hin _].
  destruct (mousemotion_in_bounds_only Demo.Entity Demo.GameMap Demo.Color Demo.impossible
              Demo.in_bounds Demo.perform Demo.handle_enemy_turns Demo.update_fov
              MainGameEventHandler (-1) 2 (Demo.game MainGameEventHandler 0))
    as [_ Hout].
  destruct (Hin eq_refl) as (_ & Hev & Hloc).
  destruct (Hout eq_refl) as (_ & Hev').
  split.
  - unfold Demo.handle_events. rewrite Hev. exact Hloc.
  - exact Hev'.
Defined.

(** After the game is over [UP] does nothing. *)
Lemma game_over_keys_witness :
  KeySym.UP <> KeySym.ESCAPE
  /\ Demo.handle_events GameOverEventHandler (KeyDown KeySym.UP)
       (Demo.game GameOverEventHandler 3)
     = (Ok false, Demo.game GameOverEventHandler 3).
Proof.
  assert (H : KeySym.UP <> KeySym.ESCAPE) by discriminate.
  split; [exact H |].
  exact (proj2 (proj1 (game_over_keys Demo.Entity Demo.GameMap Demo.Color Demo.impossible
                         Demo.in_bounds Demo.perform Demo.handle_enemy_turns
                         Demo.update_fov (Demo.game GameOverEventHandler 3))
                  KeySym.UP H)).
Defined.

(** The history of a new game, before any message, and six keys. *)
Lemma empty_log_history_stays_empty_witness :
  exists w1,
    Demo.handle_events MainGameEventHandler (KeyDown KeySym.v)
      (Demo.game MainGameEventHandler 0) = (Ok false, w1)
    /\ exists self w2,
         Demo.run (map KeyDown [KeySym.UP; KeySym.DOWN; KeySym.PAGEUP;
                               KeySym.HOME; KeySym.END; KeySym.PAGEDOWN]) w1
           = (Ok tt, w2)
         /\ event_handler (engine w2) = History self
         /\ on_render_messages self (engine w2) = [].
Proof.
  destruct (empty_log_history_stays_empty Demo.Entity Demo.GameMap Demo.Color
              Demo.impossible Demo.in_bounds Demo.perform Demo.handle_enemy_turns
              Demo.update_fov (Demo.game MainGameEventHandler 0)
              [KeySym.UP; KeySym.DOWN; KeySym.PAGEUP;
               KeySym.HOME; KeySym.END; KeySym.PAGEDOWN]
              eq_refl eq_refl)
    as (w1 & Hev & _ & _ & self & w2 & Hrun & Ha & _ & _ & Hr).
  exists w1. split; [exact Hev |].
  exists self, w2. split; [exact Hrun |]. split; [exact Ha | exact Hr].
Defined.

(** ** The further properties on the concrete game *)

(** The pick-up key gives an action and changes nothing. *)
Lemma main_keys_classification_witness :
  exists r,
    Demo.dispatch MainGameEventHandler (KeyDown KeySym.g) (Demo.game MainGameEventHandler 2)
      = (Ok r, Demo.game MainGameEventHandler 2)
    /\ r <> None.
Proof.
  destruct (main_keys_classification Demo.Entity Demo.GameMap Demo.Color Demo.in_bounds
              KeySym.g (Demo.game MainGameEventHandler 2))
    as (r & w' & Hd & Hw & Hnone & _).
  exists r. split.
  - unfold Demo.dispatch. rewrite Hd. f_equal. apply Hw. discriminate.
  - intros Hr. apply Hnone in Hr. destruct Hr as (_ & _ & _ & Hg). now apply Hg.
Defined.

(** A key without a binding. *)
Lemma main_unbound_key_ignored_witness :
  Demo.handle_events MainGameEventHandler (KeyDown (KeySym.Other 42))
    (Demo.game MainGameEventHandler 2)
  = (Ok false, Demo.game MainGameEventHandler 2).
Proof.
  apply (main_unbound_key_ignored Demo.Entity Demo.GameMap Demo.Color Demo.impossible
           Demo.in_bounds Demo.perform Demo.handle_enemy_turns Demo.update_fov
           (KeySym.Other 42) (Demo.game MainGameEventHandler 2));
    [reflexivity | reflexivity | discriminate | discriminate | discriminate].
Defined.

(** The step to the north-east has a key. *)
Lemma MOVE_KEYS_eight_neighbours_witness :
  exists key, dict_get MOVE_KEYS key = Some (1, -1).
Proof.
  apply (proj1 (proj2 MOVE_KEYS_eight_neighbours) 1 (-1)); [lia | lia | discriminate].
Defined.

(** Waiting is performed, so it costs a turn. *)
Lemma handle_action_turn_iff_performed_witness :
  exists r w',
    Demo.handle_action (Some (WaitAction "Player"%string))
      (Demo.game MainGameEventHandler 2) = (r, w')
    /\ r = Ok true.
Proof.
  destruct (handle_action_turn_iff_performed Demo.Entity Demo.GameMap Demo.Color
              Demo.impossible Demo.perform Demo.handle_enemy_turns Demo.update_fov
              (WaitAction "Player"%string) (Demo.game MainGameEventHandler 2))
    as (r & w' & calls & Hrun & _ & Hiff & _).
  exists r, w'. split; [exact Hrun |]. now apply Hiff.
Defined.

(** A pick-up with nothing to pick up does not raise. *)
Lemma handle_action_catches_impossible_only_witness :
  fst (Demo.handle_action (Some (PickupAction "Player"%string))
         (Demo.game MainGameEventHandler 2)) = Ok false.
Proof.
  apply (proj2 (proj2 (handle_action_catches_impossible_only Demo.Entity Demo.GameMap
                         Demo.Color Demo.impossible Demo.perform Demo.handle_enemy_turns
                         Demo.update_fov (PickupAction "Player"%string)
                         (Demo.game MainGameEventHandler 2)))
           "There is nothing here to pick up."%string).
  reflexivity.
Defined.

(** The window is closed while the history is open. *)
Lemma quit_ends_the_run_witness :
  Demo.run [KeyDown KeySym.UP; Quit; KeyDown KeySym.END]
    (Demo.game (History (mkHistoryViewer 5 4)) 5)
  = (Raise SystemExit,
     snd (Demo.run [KeyDown KeySym.UP] (Demo.game (History (mkHistoryViewer 5 4)) 5))).
Proof.
  exact (quit_ends_the_run Demo.Entity Demo.GameMap Demo.Color Demo.impossible
           Demo.in_bounds Demo.perform Demo.handle_enemy_turns Demo.update_fov
           [KeyDown KeySym.UP] [KeyDown KeySym.END]
           (Demo.game (History (mkHistoryViewer 5 4)) 5)
           (snd (Demo.run [KeyDown KeySym.UP] (Demo.game (History (mkHistoryViewer 5 4)) 5)))
           eq_refl).
Defined.

(** Keys after the game is over. *)
Lemma game_over_is_final_witness :
  Demo.run (map KeyDown [KeySym.UP; KeySym.v]) (Demo.game GameOverEventHandler 3)
    = (Ok tt, Demo.game GameOverEventHandler 3)
  /\ Demo.run (map KeyDown ([KeySym.UP; KeySym.v] ++ KeySym.ESCAPE :: [KeySym.g]))
       (Demo.game GameOverEventHandler 3)
     = (Raise SystemExit, Demo.game GameOverEventHandler 3).
Proof.
  exact (game_over_is_final Demo.Entity Demo.GameMap Demo.Color Demo.impossible
           Demo.in_bounds Demo.perform Demo.handle_enemy_turns Demo.update_fov
           [KeySym.UP; KeySym.v] [KeySym.g] (Demo.game GameOverEventHandler 3)
           eq_refl eq_refl).
Defined.

(** The pointer moves over the map and off it. *)
Lemma mouse_location_stays_in_bounds_witness :
  exists loc,
    Demo.run (map (fun t => MouseMotion (fst t) (snd t)) [(3, 4); (-1, 2); (100, 5)])
      (Demo.game MainGameEventHandler 0)
    = (Ok tt,
       mkWorld (set_mouse_location Demo.Entity Demo.GameMap Demo.Color loc
                  (engine (Demo.game MainGameEventHandler 0)))
               (effects (Demo.game MainGameEventHandler 0)))
    /\ Demo.in_bounds (80, 43) (fst loc) (snd loc) = true.
Proof.
  destruct (mouse_location_stays_in_bounds Demo.Entity Demo.GameMap Demo.Color
              Demo.impossible Demo.in_bounds Demo.perform Demo.handle_enemy_turns
              Demo.update_fov [(3, 4); (-1, 2); (100, 5)]
              (Demo.game MainGameEventHandler 0) eq_refl)
    as (loc & Hrun & Hloc & _).
  exists loc. split; [exact Hrun | exact Hloc].
Defined.

(** Three keys in the history of five messages. *)
Lemma history_session_frame_witness :
  exists c,
    Demo.run (map KeyDown [KeySym.UP; KeySym.PAGEDOWN; KeySym.HOME])
      (Demo.game (History (mkHistoryViewer 5 4)) 5)
    = (Ok tt, Demo.game (History (mkHistoryViewer 5 c)) 5).
Proof.
  destruct (history_session_frame Demo.Entity Demo.GameMap Demo.Color Demo.impossible
              Demo.in_bounds Demo.perform Demo.handle_enemy_turns Demo.update_fov
              [KeySym.UP; KeySym.PAGEDOWN; KeySym.HOME] (mkHistoryViewer 5 4)
              (Demo.game (History (mkHistoryViewer 5 4)) 5) eq_refl eq_refl)
    as (c & Hrun & _).
  exists c. exact Hrun.
Defined.

(** Three [UP] from the last of five messages. *)
Lemma history_up_n_witness :
  Demo.run (map KeyDown (repeat KeySym.UP 3)) (Demo.game (History (mkHistoryViewer 5 4)) 5)
  = (Ok tt, Demo.game (History (mkHistoryViewer 5 1)) 5).
Proof.
  apply (history_up_n Demo.Entity Demo.GameMap Demo.Color Demo.impossible
           Demo.in_bounds Demo.perform Demo.handle_enemy_turns Demo.update_fov
           3 (mkHistoryViewer 5 4) (Demo.game (History (mkHistoryViewer 5 4)) 5)).
  - reflexivity.
  - simpl. lia.
Defined.

(** Seven [DOWN] from the third of five messages: once round and two on. *)
Lemma history_down_n_witness :
  Demo.run (map KeyDown (repeat KeySym.DOWN 7)) (Demo.game (History (mkHistoryViewer 5 2)) 5)
  = (Ok tt, Demo.game (History (mkHistoryViewer 5 4)) 5).
Proof.
  apply (history_down_n Demo.Entity Demo.GameMap Demo.Color Demo.impossible
           Demo.in_bounds Demo.perform Demo.handle_enemy_turns Demo.update_fov
           7 (mkHistoryViewer 5 2) (Demo.game (History (mkHistoryViewer 5 2)) 5)).
  - reflexivity.
  - simpl. lia.
Defined.

(** The history opened, scrolled and closed with [ESCAPE]. *)
Lemma history_open_close_restores_witness :
  engine (snd (Demo.run (KeyDown KeySym.v
                           :: map KeyDown [KeySym.UP; KeySym.UP] ++ [KeyDown KeySym.ESCAPE])
                 (Demo.game MainGameEventHandler 5)))
  = engine (Demo.game MainGameEventHandler 5).
Proof.
  unfold Demo.run.
  rewrite (history_open_close_restores Demo.Entity Demo.GameMap Demo.Color Demo.impossible
             Demo.in_bounds Demo.perform Demo.handle_enemy_turns Demo.update_fov
             [KeySym.UP; KeySym.UP] KeySym.ESCAPE (Demo.game MainGameEventHandler 5)
             eq_refl eq_refl eq_refl).
  reflexivity.
Defined.

(** The history opened on five messages and scrolled up twice. *)
Lemma history_renders_prefix_witness :
  exists c w',
    Demo.run (KeyDown KeySym.v :: map KeyDown [KeySym.UP; KeySym.UP])
      (Demo.game MainGameEventHandler 5) = (Ok tt, w')
    /\ on_render_messages (mkHistoryViewer 5 c) (engine w')
       = firstn (Z.to_nat (c + 1))
           (messages (message_log (engine (Demo.game MainGameEventHandler 5)))).
Proof.
  destruct (history_renders_prefix Demo.Entity Demo.GameMap Demo.Color Demo.impossible
              Demo.in_bounds Demo.perform Demo.handle_enemy_turns Demo.update_fov
              [KeySym.UP; KeySym.UP] (Demo.game MainGameEventHandler 5) eq_refl eq_refl)
    as (c & w' & Hrun & _ & _ & Hs & _).
  exists c, w'. split; [exact Hrun | exact Hs].
Defined.
